(** * SshControl: the "SSH keys" settings control

    A shallow embedding of [selfdrive/ui/qt/widgets/ssh_keys.cc].  The widget
    is a [ButtonControl] with a secondary [username_label]; it talks to four
    collaborators whose code lives elsewhere: the [Params] key-value store,
    [InputDialog::getText], [ConfirmationDialog::alert] and [HttpRequest].

    The member functions become programs of a small state monad over a
    [World] record holding the widget's fields, the store, the requests in
    flight and a trace of the calls made to the collaborators. *)

From Stdlib Require Import Ascii.
From stdpp Require Import base option strings list gmap.

Local Open Scope string_scope.
Local Open Scope list_scope.

(** ** Strings

    A [std::string] is the byte string it holds.  A [QString] is modelled by
    the UTF-8 encoding of its text, which is also how the literals appear in
    the source file; two [QString]s are equal exactly when these encodings
    are, so [==] is equality of byte strings, and a [QString] is empty
    exactly when its encoding is.  In this model [QString::toStdString] is
    the identity, and [QString::fromStdString] is Qt's UTF-8 decoder
    followed by the re-encoding of what it decoded. *)

(** The UTF-8 encodings of U+FEFF (the byte order mark) and of U+FFFD (the
    replacement character). *)
Definition utf8_bom : string :=
  String "239"%char (String "187"%char (String "191"%char EmptyString)).

Definition utf8_replacement : string :=
  String "239"%char (String "191"%char (String "189"%char EmptyString)).

(** [(b & 0xc0) == 0x80] *)
Definition isContinuationByte (b : ascii) : bool :=
  (N.land (N_of_ascii b) 0xC0 =? 0x80)%N.

(** [uc <<= 6; uc |= b & 0x3f] *)
Definition push_continuation (uc : N) (b : ascii) : N :=
  N.lor (N.shiftl uc 6) (N.land (N_of_ascii b) 0x3F).

(** The safety check on a decoded code point: not overlong, not a surrogate,
    not beyond U+10FFFF. *)
Definition scalar_ok (min_uc uc : N) : bool :=
  (negb (uc <? min_uc) && negb ((0xD800 <=? uc) && (uc <? 0xE000))
   && negb (0x10FFFF <? uc))%N.

(** Qt 5's stateless UTF-8 decoder ([QUtf8::convertToUnicode] over
    [QUtf8Functions::fromUtf8]), after the byte order mark was dealt with.
    The lead byte fixes the length of the sequence; a well-formed sequence
    is decoded and consumed whole, and re-encodes to the same bytes; on any
    error (a stray continuation byte, an overlong form, a surrogate, a code
    point beyond U+10FFFF, a truncated sequence) one replacement character
    is produced and only the lead byte is consumed. *)
Fixpoint convertToUnicode (s : string) : string :=
  match s with
  | EmptyString => EmptyString
  | String b rest =>
      let n := N_of_ascii b in
      if (n <? 0x80)%N then String b (convertToUnicode rest)
      else if (n <=? 0xC1)%N then utf8_replacement +:+ convertToUnicode rest
      else if (n <? 0xE0)%N then
        match rest with
        | String c1 rest1 =>
            if isContinuationByte c1
               && scalar_ok 0x80 (push_continuation (N.land n 0x1F) c1)
            then String b (String c1 (convertToUnicode rest1))
            else utf8_replacement +:+ convertToUnicode rest
        | _ => utf8_replacement +:+ convertToUnicode rest
        end
      else if (n <? 0xF0)%N then
        match rest with
        | String c1 (String c2 rest2) =>
            if isContinuationByte c1 && isContinuationByte c2
               && scalar_ok 0x800
                    (push_continuation (push_continuation (N.land n 0x0F) c1) c2)
            then String b (String c1 (String c2 (convertToUnicode rest2)))
            else utf8_replacement +:+ convertToUnicode rest
        | _ => utf8_replacement +:+ convertToUnicode rest
        end
      else if (n <? 0xF5)%N then
        match rest with
        | String c1 (String c2 (String c3 rest3)) =>
            if isContinuationByte c1 && isContinuationByte c2 && isContinuationByte c3
               && scalar_ok 0x10000
                    (push_continuation
                       (push_continuation (push_continuation (N.land n 0x07) c1) c2) c3)
            then String b (String c1 (String c2 (String c3 (convertToUnicode rest3))))
            else utf8_replacement +:+ convertToUnicode rest
        | _ => utf8_replacement +:+ convertToUnicode rest
        end
      else utf8_replacement +:+ convertToUnicode rest
  end.

(** The decoder skips a byte order mark that opens the input. *)
Definition skip_bom (s : string) : string :=
  match s with
  | String b0 (String b1 (String b2 rest)) =>
      if Ascii.eqb b0 "239" && Ascii.eqb b1 "187" && Ascii.eqb b2 "191"
      then rest else s
  | _ => s
  end.

(** [QString::fromStdString] *)
Definition QString_fromStdString (s : string) : string :=
  convertToUnicode (skip_bom s).

(** [QString::arg] for the only shape of format used here: the place marker
    [%1], not followed by a digit, is replaced by the argument; the text
    substituted is not scanned again. *)
Fixpoint QString_arg (fmt a : string) : string :=
  match fmt with
  | EmptyString => EmptyString
  | String "%"%char (String "1"%char rest) => a +:+ QString_arg rest a
  | String c rest => String c (QString_arg rest a)
  end.

(** ** The world *)

(** Calls made to the dialogs and to the network, in the order made. *)
Inductive event : Type :=
  | InputDialog_getText (prompt answer : string)
  | ConfirmationDialog_alert (msg : string)
  | HttpRequest_sendRequest (url : string).

(** An [HttpRequest] object.  The only slot ever connected to its
    [requestDone] signal is the closure of [getUserKeys], which captures the
    username by value; the closure is represented by that username. *)
Record HttpRequest : Type := mkHttpRequest {
  create_jwt : bool;
  requestDone_slot : option string
}.

Record World : Type := mkWorld {
  params : gmap string string;      (* Params: absent keys are not in the map *)
  button_text : string;             (* ButtonControl::text() *)
  username_label : string;          (* username_label.text() *)
  enabled : bool;                   (* QWidget::isEnabled() *)
  requests : list (HttpRequest * string);  (* requests sent and not yet deleted, with their URL *)
  typed : list string;              (* what the user will answer to the next prompts *)
  trace : list event                (* oldest call first *)
}.

(** ** A state monad over the world *)

Definition M (A : Type) : Type := World -> A * World.

#[global] Instance M_ret : MRet M := fun A a w => (a, w).
#[global] Instance M_bind : MBind M :=
  fun A B f m w => let '(a, w') := m w in f a w'.

Definition exec {A} (m : M A) (w : World) : World := snd (m w).

(** *** Field updates *)

Definition with_params (f : gmap string string -> gmap string string) (w : World) : World :=
  mkWorld (f (params w)) (button_text w) (username_label w) (enabled w)
          (requests w) (typed w) (trace w).

Definition with_button_text (s : string) (w : World) : World :=
  mkWorld (params w) s (username_label w) (enabled w)
          (requests w) (typed w) (trace w).

Definition with_username_label (s : string) (w : World) : World :=
  mkWorld (params w) (button_text w) s (enabled w)
          (requests w) (typed w) (trace w).

Definition with_enabled (b : bool) (w : World) : World :=
  mkWorld (params w) (button_text w) (username_label w) b
          (requests w) (typed w) (trace w).

Definition with_requests (f : list (HttpRequest * string) -> list (HttpRequest * string))
    (w : World) : World :=
  mkWorld (params w) (button_text w) (username_label w) (enabled w)
          (f (requests w)) (typed w) (trace w).

Definition with_typed (l : list string) (w : World) : World :=
  mkWorld (params w) (button_text w) (username_label w) (enabled w)
          (requests w) l (trace w).

Definition log (e : event) (w : World) : World :=
  mkWorld (params w) (button_text w) (username_label w) (enabled w)
          (requests w) (typed w) (trace w ++ [e]).

(** ** The collaborators *)

Module Params.
(** Modelled from the spec: the [Params] class of
    [selfdrive/common/params.h] is not part of this file.  Its contract is
    [get(key) -> string (empty if absent)], [put(key, value)] and
    [remove(key)]. *)
Definition get (key : string) : M string :=
  fun w => (default "" (params w !! key), w).

Definition put (key value : string) : M unit :=
  fun w => (tt, with_params <[key := value]> w).

Definition remove (key : string) : M unit :=
  fun w => (tt, with_params (delete key) w).
End Params.

Module ButtonControl.
(** Modelled from the spec: the base class of the widget, declared in
    [selfdrive/ui/qt/widgets/controls.h]; a button with a text and an
    enabled flag. *)
Definition text : M string := fun w => (button_text w, w).
Definition setText (s : string) : M unit := fun w => (tt, with_button_text s w).
Definition setEnabled (b : bool) : M unit := fun w => (tt, with_enabled b w).
End ButtonControl.

Module QLabel.
(** The only label of the widget is [username_label]. *)
Definition setText (s : string) : M unit := fun w => (tt, with_username_label s w).
End QLabel.

Module InputDialog.
(** Modelled from the spec: a modal prompt returning an optionally-empty
    string.  A cancelled dialog returns the empty string, as does a user
    who has nothing more to type. *)
Definition getText (prompt : string) : M string :=
  fun w =>
    let answer := hd "" (typed w) in
    (answer, log (InputDialog_getText prompt answer) (with_typed (tl (typed w)) w)).
End InputDialog.

Module ConfirmationDialog.
(** Modelled from the spec: a modal message display; it returns nothing
    the caller uses. *)
Definition alert (msg : string) : M unit :=
  fun w => (tt, log (ConfirmationDialog_alert msg) w).
End ConfirmationDialog.

Module Http.
(** Modelled from the spec: the [HttpRequest] class of
    [selfdrive/ui/qt/api.h], a single GET whose completion is delivered
    through the [requestDone] signal with a response body and a success
    flag, and a timeout flag that can be queried. *)

(** [new HttpRequest(parent, create_jwt)]: nothing is connected yet. *)
Definition new (jwt : bool) : HttpRequest :=
  {| create_jwt := jwt; requestDone_slot := None |}.

(** [QObject::connect(request, &HttpRequest::requestDone, closure)]; the
    closure is represented by the username it captured. *)
Definition connect (request : HttpRequest) (username : string) : HttpRequest :=
  {| create_jwt := create_jwt request; requestDone_slot := Some username |}.

(** [request->sendRequest(url)] hands the request to the network and
    returns at once; completion is delivered later by the event loop. *)
Definition sendRequest (request : HttpRequest) (url : string) : M unit :=
  fun w => (tt, log (HttpRequest_sendRequest url)
                    (with_requests (fun l => l ++ [(request, url)]) w)).

(** [request->deleteLater()] for the request at position [i]. *)
Definition deleteLater (i : nat) : M unit :=
  fun w => (tt, with_requests (delete i) w).
End Http.

(** ** SshControl *)

Definition label_add : string := "اضف".
Definition label_remove : string := "إزالة".
Definition label_loading : string := "جار التحميل".
Definition prompt_username : string := "أدخل اسم مستخدم جت هب الخاص بك".

(** [void SshControl::refresh()] *)
Definition refresh : M unit :=
  keys ← Params.get "GithubSshKeys";
  let param := QString_fromStdString keys in
  (if negb (String.length param =? 0)%nat then
     username ← Params.get "GithubUsername";
     QLabel.setText (QString_fromStdString username);;
     ButtonControl.setText label_remove
   else
     QLabel.setText "";;
     ButtonControl.setText label_add);;
  ButtonControl.setEnabled true.

(** The [requestDone] closure of [getUserKeys]: [request] and [username] are
    its captures, [resp] and [success] its arguments; [timeout] is what
    [request->timeout()] answers when the closure runs. *)
Definition requestDone (request : nat) (timeout : bool) (username : string)
    (resp : string) (success : bool) : M unit :=
  (if success then
     if negb (String.length resp =? 0)%nat then
       Params.put "GithubUsername" username;;
       Params.put "GithubSshKeys" resp
     else
       ConfirmationDialog.alert (QString_arg "Username '%1' has no keys on GitHub" username)
   else
     if timeout then
       ConfirmationDialog.alert "Request timed out"
     else
       ConfirmationDialog.alert (QString_arg "Username '%1' doesn't exist on GitHub" username));;
  refresh;;
  Http.deleteLater request.

(** [void SshControl::getUserKeys(const QString &username)] *)
Definition getUserKeys (username : string) : M unit :=
  let request := Http.new false in
  let request := Http.connect request username in
  Http.sendRequest request ("https://github.com/" +:+ username +:+ ".keys").

(** The closure connected to [ButtonControl::clicked] by the constructor. *)
Definition clicked : M unit :=
  t ← ButtonControl.text;
  if String.eqb t "ADD" then
    username ← InputDialog.getText prompt_username;
    if (0 <? String.length username)%nat then
      ButtonControl.setText label_loading;;
      ButtonControl.setEnabled false;;
      getUserKeys username
    else mret tt
  else
    Params.remove "GithubUsername";;
    Params.remove "GithubSshKeys";;
    refresh.

(** [SshControl::SshControl()]: a [ButtonControl] with empty button text, no
    request in flight, and one call of [refresh].  The title, the
    description and the styling of the label are static and not modelled. *)
Definition SshControl (store : gmap string string) (answers : list string) : World :=
  exec refresh
    {| params := store; button_text := ""; username_label := ""; enabled := true;
       requests := []; typed := answers; trace := [] |}.

(** ** The event loop

    Between two handlers the widget is idle.  The environment either clicks
    the button or completes one of the requests in flight; completing
    request [i] emits its [requestDone] signal, which runs the connected
    closure, if any. *)

Definition deliver (i : nat) (timeout : bool) (resp : string) (success : bool) : M unit :=
  fun w =>
    match requests w !! i with
    | Some (request, _) =>
        match requestDone_slot request with
        | Some username => requestDone i timeout username resp success w
        | None => (tt, w)
        end
    | None => (tt, w)
    end.

Inductive input : Type :=
  | Click
  | Completion (i : nat) (timeout : bool) (resp : string) (success : bool).

Definition handle (e : input) : M unit :=
  match e with
  | Click => clicked
  | Completion i timeout resp success => deliver i timeout resp success
  end.

Definition run (es : list input) (w : World) : World :=
  foldl (fun w e => exec (handle e) w) w es.

(** ** Observations *)

(** What [params.get(key)] answers in world [w]. *)
Definition stored (key : string) (w : World) : string :=
  default "" (params w !! key).

(** What the widget reads for [key]: the stored bytes, decoded. *)
Definition decoded (key : string) (w : World) : string :=
  QString_fromStdString (stored key w).

(** What the user sees of the control. *)
Definition displayed (w : World) : string * string * bool :=
  (button_text w, username_label w, enabled w).

(** Both persisted fields are present, or both are absent. *)
Definition paired (m : gmap string string) : Prop :=
  is_Some (m !! "GithubUsername") ↔ is_Some (m !! "GithubSshKeys").

(** The store after the two [remove] calls of the click handler. *)
Definition unlinked (m : gmap string string) : gmap string string :=
  delete "GithubSshKeys" (delete "GithubUsername" m).

(** The message of the alert shown for a completion that stores nothing. *)
Definition alert_message (timeout : bool) (username : string) (success : bool) : string :=
  if success then "Username '" +:+ username +:+ "' has no keys on GitHub"
  else if timeout then "Request timed out"
  else "Username '" +:+ username +:+ "' doesn't exist on GitHub".

(** In a quiet world no dialog was shown, no request was sent, and the button
    reads what [refresh] wrote. *)
Definition quiet (answers : list string) (w : World) : Prop :=
  trace w = [] ∧ requests w = [] ∧ typed w = answers ∧
  (button_text w = label_add ∨ button_text w = label_remove).

(** A request as [getUserKeys] sends it from the click handler: no JWT, the
    closure connected, a non-empty username captured, and the URL built from
    that username. *)
Definition sent_by_getUserKeys (rq : HttpRequest * string) : Prop :=
  ∃ username, username ≠ "" ∧
    rq = ({| create_jwt := false; requestDone_slot := Some username |},
          "https://github.com/" +:+ username +:+ ".keys").

Definition well_sent (w : World) : Prop := Forall sent_by_getUserKeys (requests w).

(** Stored keys are never empty and come with a non-empty username. *)
Definition nonempty_link (m : gmap string string) : Prop :=
  ∀ keys, m !! "GithubSshKeys" = Some keys →
    keys ≠ "" ∧ ∃ username, m !! "GithubUsername" = Some username ∧ username ≠ "".

(** The control accepts clicks, or a request is in flight. *)
Definition responsive (w : World) : Prop := enabled w = true ∨ requests w ≠ [].

(** Unfold the monad and the primitives, leaving the strings alone. *)
Ltac unfold_M :=
  cbv beta iota zeta delta
    [exec mbind mret M_bind M_ret snd fst
     Params.get Params.put Params.remove
     ButtonControl.text ButtonControl.setText ButtonControl.setEnabled
     QLabel.setText InputDialog.getText ConfirmationDialog.alert
     Http.new Http.connect Http.sendRequest Http.deleteLater
     with_params with_button_text with_username_label with_enabled
     with_requests with_typed log
     params button_text username_label enabled requests typed trace].

(** ** Basic facts *)

Lemma nonempty_length (s : string) :
  s ≠ "" → negb (String.length s =? 0)%nat = true.
Proof.
  intros Hs. destruct s as [|c s]; [contradiction|reflexivity].
Qed.

Lemma QString_arg_no_keys (u : string) :
  QString_arg "Username '%1' has no keys on GitHub" u
  = "Username '" +:+ u +:+ "' has no keys on GitHub".
Proof. reflexivity. Qed.

Lemma QString_arg_not_exist (u : string) :
  QString_arg "Username '%1' doesn't exist on GitHub" u
  = "Username '" +:+ u +:+ "' doesn't exist on GitHub".
Proof. reflexivity. Qed.

(** *** The decoder *)

Lemma convertToUnicode_nonempty (b : ascii) (rest : string) :
  convertToUnicode (String b rest) ≠ "".
Proof.
  cbn [convertToUnicode]. cbv zeta.
  repeat case_match; unfold utf8_replacement; simpl; discriminate.
Qed.

Lemma convertToUnicode_empty (s : string) : convertToUnicode s = "" ↔ s = "".
Proof.
  split; [|intros ->; reflexivity].
  destruct s as [|b rest]; [reflexivity|].
  intros H. destruct (convertToUnicode_nonempty b rest H).
Qed.

Lemma skip_bom_empty (s : string) : skip_bom s = "" ↔ s = "" ∨ s = utf8_bom.
Proof.
  split.
  - destruct s as [|b0 [|b1 [|b2 rest]]]; cbn [skip_bom]; try (intros H; discriminate H); auto.
    destruct (Ascii.eqb_spec b0 "239") as [-> |]; cbn [andb]; try (intros H; discriminate H).
    destruct (Ascii.eqb_spec b1 "187") as [-> |]; cbn [andb]; try (intros H; discriminate H).
    destruct (Ascii.eqb_spec b2 "191") as [-> |]; try (intros H; discriminate H).
    intros ->. right. reflexivity.
  - intros [-> | ->]; reflexivity.
Qed.

(** The widget takes a stored value for empty exactly when it is empty or a
    lone byte order mark. *)
Lemma fromStdString_empty (s : string) :
  QString_fromStdString s = "" ↔ s = "" ∨ s = utf8_bom.
Proof.
  unfold QString_fromStdString. rewrite convertToUnicode_empty. apply skip_bom_empty.
Qed.

Lemma fromStdString_length (s : string) :
  negb (String.length (QString_fromStdString s) =? 0)%nat = true ↔ s ≠ "" ∧ s ≠ utf8_bom.
Proof.
  pose proof (fromStdString_empty s) as E.
  destruct (QString_fromStdString s) as [|c r]; cbn [String.length Nat.eqb negb].
  - split; [discriminate|]. intros [H1 H2].
    destruct (proj1 E eq_refl); contradiction.
  - split; [|reflexivity]. intros _.
    split; intros H.
    + assert (String c r = "") as X by (apply E; left; exact H). discriminate X.
    + assert (String c r = "") as X by (apply E; right; exact H). discriminate X.
Qed.

(** [refresh] in closed form: it reads the store and overwrites the three
    displayed fields; store, requests and trace are left alone. *)
Lemma refresh_unfold (w : World) :
  exec refresh w =
  let linked := negb (String.length (decoded "GithubSshKeys" w) =? 0)%nat in
  mkWorld (params w)
          (if linked then label_remove else label_add)
          (if linked then decoded "GithubUsername" w else "")
          true (requests w) (typed w) (trace w).
Proof.
  unfold refresh, decoded, stored. unfold_M.
  destruct w as [m t u e r a l]; cbn [params]. unfold_M.
  destruct (negb _); reflexivity.
Qed.

Lemma exec_bind {A B} (m : M A) (k : A → M B) (w : World) :
  exec (m ≫= k) w = exec (k (m w).1) (exec m w).
Proof. unfold exec, mbind, M_bind. destruct (m w); reflexivity. Qed.

Lemma refresh_params (w : World) : params (exec refresh w) = params w.
Proof. rewrite refresh_unfold. reflexivity. Qed.

Lemma refresh_trace (w : World) : trace (exec refresh w) = trace w.
Proof. rewrite refresh_unfold. reflexivity. Qed.

Lemma refresh_requests (w : World) : requests (exec refresh w) = requests w.
Proof. rewrite refresh_unfold. reflexivity. Qed.

Lemma refresh_typed (w : World) : typed (exec refresh w) = typed w.
Proof. rewrite refresh_unfold. reflexivity. Qed.

Lemma refresh_enabled (w : World) : enabled (exec refresh w) = true.
Proof. rewrite refresh_unfold. reflexivity. Qed.

Lemma refresh_button_text (w : World) :
  button_text (exec refresh w) = label_add ∨ button_text (exec refresh w) = label_remove.
Proof. rewrite refresh_unfold. cbn. destruct (negb _); auto. Qed.

Lemma refresh_idem (w : World) : exec refresh (exec refresh w) = exec refresh w.
Proof. rewrite (refresh_unfold (exec refresh w)), (refresh_unfold w). reflexivity. Qed.

(** The removal branch of the click handler, taken for every button text
    other than the literal [ADD]. *)
Lemma clicked_else (w : World) :
  button_text w ≠ "ADD" →
  exec clicked w = exec refresh (with_params unlinked w).
Proof.
  intros Ht. unfold clicked. rewrite exec_bind.
  change ((ButtonControl.text w).1) with (button_text w).
  change (exec ButtonControl.text w) with w.
  destruct (String.eqb_spec (button_text w) "ADD") as [E|_]; [contradiction|].
  rewrite !exec_bind. reflexivity.
Qed.

(** The prompt branch, taken when the button text is the literal [ADD]. *)
Lemma clicked_ADD (w : World) :
  button_text w = "ADD" →
  let username := hd "" (typed w) in
  let asked := log (InputDialog_getText prompt_username username)
                   (with_typed (tl (typed w)) w) in
  exec clicked w =
  if (0 <? String.length username)%nat then
    exec (getUserKeys username) (with_enabled false (with_button_text label_loading asked))
  else asked.
Proof.
  intros Ht. unfold clicked. rewrite exec_bind.
  change ((ButtonControl.text w).1) with (button_text w).
  change (exec ButtonControl.text w) with w.
  rewrite Ht. change (String.eqb "ADD" "ADD") with true. cbv iota.
  rewrite exec_bind.
  change ((InputDialog.getText prompt_username w).1) with (hd "" (typed w)).
  destruct (0 <? String.length (hd "" (typed w)))%nat; [|reflexivity].
  rewrite !exec_bind. reflexivity.
Qed.

Lemma getUserKeys_unfold (username : string) (w : World) :
  exec (getUserKeys username) w =
  let url := "https://github.com/" +:+ username +:+ ".keys" in
  log (HttpRequest_sendRequest url)
      (with_requests
         (λ l, l ++ [({| create_jwt := false; requestDone_slot := Some username |}, url)])
         w).
Proof. reflexivity. Qed.

(** The closure of [getUserKeys] on a successful, non-empty response. *)
Lemma requestDone_stored (i : nat) (timeout : bool) (username resp : string) (w : World) :
  resp ≠ "" →
  exec (requestDone i timeout username resp true) w =
  with_requests (delete i)
    (exec refresh
       (with_params (λ m, <["GithubSshKeys" := resp]> (<["GithubUsername" := username]> m)) w)).
Proof.
  intros Hr. unfold requestDone. rewrite (nonempty_length _ Hr).
  rewrite !exec_bind. reflexivity.
Qed.

Lemma requestDone_alerted (i : nat) (timeout : bool) (username resp : string)
    (success : bool) (w : World) :
  ¬ (success = true ∧ resp ≠ "") →
  exec (requestDone i timeout username resp success) w =
  with_requests (delete i)
    (exec refresh (log (ConfirmationDialog_alert (alert_message timeout username success)) w)).
Proof.
  intros Hn. unfold requestDone, alert_message.
  destruct success.
  - assert (resp = "") as -> by (destruct resp; [reflexivity|exfalso; apply Hn; split; congruence]).
    rewrite !exec_bind. reflexivity.
  - destruct timeout; rewrite !exec_bind; reflexivity.
Qed.

Lemma label_add_not_ADD : label_add ≠ "ADD".
Proof. discriminate. Qed.

Lemma label_remove_not_ADD : label_remove ≠ "ADD".
Proof. discriminate. Qed.

Lemma refresh_not_ADD (w : World) : button_text (exec refresh w) ≠ "ADD".
Proof.
  destruct (refresh_button_text w) as [-> | ->];
    [apply label_add_not_ADD | apply label_remove_not_ADD].
Qed.

Lemma unlinked_username (m : gmap string string) : unlinked m !! "GithubUsername" = None.
Proof. unfold unlinked. rewrite lookup_delete_ne by discriminate. apply lookup_delete_eq. Qed.

Lemma unlinked_keys (m : gmap string string) : unlinked m !! "GithubSshKeys" = None.
Proof. unfold unlinked. apply lookup_delete_eq. Qed.

Lemma refresh_unlinked (w : World) :
  exec refresh (with_params unlinked w) =
  mkWorld (unlinked (params w)) label_add "" true (requests w) (typed w) (trace w).
Proof.
  rewrite refresh_unfold. unfold decoded, stored. cbn [params with_params].
  rewrite unlinked_keys. reflexivity.
Qed.

Lemma clicked_params (w : World) :
  params (exec clicked w) = params w ∨ params (exec clicked w) = unlinked (params w).
Proof.
  destruct (String.eqb_spec (button_text w) "ADD") as [E|N].
  - left. rewrite (clicked_ADD w E). cbv zeta.
    destruct (0 <? _)%nat; reflexivity.
  - right. rewrite (clicked_else w N), refresh_unlinked. reflexivity.
Qed.

Lemma requestDone_params (i : nat) (timeout : bool) (username resp : string)
    (success : bool) (w : World) :
  params (exec (requestDone i timeout username resp success) w) =
  if success && negb (String.length resp =? 0)%nat
  then <["GithubSshKeys" := resp]> (<["GithubUsername" := username]> (params w))
  else params w.
Proof.
  destruct success, resp as [|c resp]; cbn [andb negb String.length Nat.eqb].
  - rewrite requestDone_alerted by (intros [_ H]; congruence).
    cbn [params with_requests]. rewrite refresh_params. reflexivity.
  - rewrite requestDone_stored by discriminate.
    cbn [params with_requests]. rewrite refresh_params. reflexivity.
  - rewrite requestDone_alerted by (intros [H _]; discriminate).
    cbn [params with_requests]. rewrite refresh_params. reflexivity.
  - rewrite requestDone_alerted by (intros [H _]; discriminate).
    cbn [params with_requests]. rewrite refresh_params. reflexivity.
Qed.

Lemma paired_unlinked (m : gmap string string) : paired (unlinked m).
Proof.
  unfold paired. rewrite unlinked_username, unlinked_keys. reflexivity.
Qed.

Lemma paired_linked (m : gmap string string) (username resp : string) :
  paired (<["GithubSshKeys" := resp]> (<["GithubUsername" := username]> m)).
Proof.
  unfold paired. rewrite lookup_insert_eq.
  rewrite lookup_insert_ne by discriminate. rewrite lookup_insert_eq.
  split; eauto.
Qed.

Lemma clicked_paired (w : World) : paired (params w) → paired (params (exec clicked w)).
Proof.
  intros H. destruct (clicked_params w) as [-> | ->]; [exact H | apply paired_unlinked].
Qed.

Lemma requestDone_paired (i : nat) (timeout : bool) (username resp : string)
    (success : bool) (w : World) :
  paired (params w) → paired (params (exec (requestDone i timeout username resp success) w)).
Proof.
  intros H. rewrite requestDone_params.
  destruct (success && _); [apply paired_linked | exact H].
Qed.

Lemma deliver_paired (i : nat) (timeout : bool) (resp : string) (success : bool) (w : World) :
  paired (params w) → paired (params (exec (deliver i timeout resp success) w)).
Proof.
  intros H. unfold exec, deliver.
  destruct (requests w !! i) as [[request url]|]; [|exact H].
  destruct (requestDone_slot request) as [username|]; [|exact H].
  apply requestDone_paired, H.
Qed.

Lemma run_paired (es : list input) (w : World) :
  paired (params w) → paired (params (run es w)).
Proof.
  revert w. induction es as [|e es IH]; intros w H; [exact H|].
  cbn [run foldl]. apply IH.
  destruct e as [|i timeout resp success]; cbn [handle].
  - apply clicked_paired, H.
  - apply deliver_paired, H.
Qed.

Lemma SshControl_quiet (store : gmap string string) (answers : list string) :
  quiet answers (SshControl store answers).
Proof.
  unfold quiet, SshControl.
  rewrite refresh_trace, refresh_requests, refresh_typed.
  repeat split. apply refresh_button_text.
Qed.

Lemma handle_quiet (answers : list string) (e : input) (w : World) :
  quiet answers w → quiet answers (exec (handle e) w).
Proof.
  intros (Ht & Hr & Ha & Hb). destruct e as [|i timeout resp success]; cbn [handle].
  - rewrite clicked_else, refresh_unlinked
      by (destruct Hb as [-> | ->]; [apply label_add_not_ADD | apply label_remove_not_ADD]).
    unfold quiet. cbn. auto.
  - unfold exec, deliver. rewrite Hr. cbn. unfold quiet. auto.
Qed.

Lemma run_quiet (answers : list string) (es : list input) (w : World) :
  quiet answers w → quiet answers (run es w).
Proof.
  revert w. induction es as [|e es IH]; intros w H; [exact H|].
  cbn [run foldl]. apply IH, handle_quiet, H.
Qed.

(** * The claims *)

(** ** C1

    A click on the freshly constructed, unlinked control, with a user ready
    to type [octocat]: the button reads [label_add], yet the handler shows
    no prompt, never enters the loading state and sends no request; the
    world after the click is the world before it. *)
Theorem clicked_on_add_label_skips_prompt :
  let w := SshControl ∅ ["octocat"] in
  displayed w = (label_add, "", true) ∧
  exec clicked w = w ∧
  trace (exec clicked w) = [] ∧
  requests (exec clicked w) = [] ∧
  typed (exec clicked w) = ["octocat"] ∧
  displayed (exec clicked w) = (label_add, "", true).
Proof. vm_compute. repeat split. Qed.

(** ** C2

    A click while the button reads [label_remove] deletes both
    [GithubUsername] and [GithubSshKeys] and then refreshes: the control
    shows [label_add] with an empty username label and is enabled; no dialog
    is shown and no request is made on the way. *)
Theorem clicked_remove (w : World) :
  button_text w = label_remove →
  let w' := exec clicked w in
  w' = exec refresh (with_params unlinked w) ∧
  params w' = delete "GithubSshKeys" (delete "GithubUsername" (params w)) ∧
  params w' !! "GithubUsername" = None ∧
  params w' !! "GithubSshKeys" = None ∧
  displayed w' = (label_add, "", true) ∧
  trace w' = trace w ∧
  requests w' = requests w.
Proof.
  intros Ht w'. subst w'.
  rewrite clicked_else by (rewrite Ht; apply label_remove_not_ADD).
  split; [reflexivity|]. rewrite refresh_unlinked.
  cbn [params displayed button_text username_label enabled trace requests].
  rewrite unlinked_username, unlinked_keys. repeat split.
Qed.

Lemma clicked_remove_witness :
  let w := SshControl (<["GithubUsername" := "octocat"]> {["GithubSshKeys" := "ssh-rsa AAA"]}) [] in
  button_text w = label_remove ∧
  let w' := exec clicked w in
  w' = exec refresh (with_params unlinked w) ∧
  params w' = delete "GithubSshKeys" (delete "GithubUsername" (params w)) ∧
  params w' !! "GithubUsername" = None ∧
  params w' !! "GithubSshKeys" = None ∧
  displayed w' = (label_add, "", true) ∧
  trace w' = trace w ∧
  requests w' = requests w.
Proof.
  intros w.
  assert (button_text w = label_remove) as Ht by (vm_compute; reflexivity).
  split; [exact Ht | exact (clicked_remove w Ht)].
Defined.

(** ** C3

    As stated the claim fails: a store whose [GithubSshKeys] is a lone byte
    order mark holds a non-empty value, yet [refresh] reads it as empty and
    shows [label_add] with a cleared username label. *)
Lemma refresh_bom_counterexample :
  let w := SshControl (<["GithubUsername" := "octocat"]> {["GithubSshKeys" := utf8_bom]}) [] in
  stored "GithubSshKeys" w ≠ "" ∧
  displayed (exec refresh w) = (label_add, "", true) ∧
  ¬ (button_text (exec refresh w) = label_remove
     ∧ username_label (exec refresh w) = stored "GithubUsername" w
     ↔ stored "GithubSshKeys" w ≠ "").
Proof.
  cbv zeta.
  assert (stored "GithubSshKeys"
            (SshControl (<["GithubUsername" := "octocat"]> {["GithubSshKeys" := utf8_bom]}) [])
          ≠ "") as Hk by (vm_compute; discriminate).
  split; [exact Hk|].
  split; [vm_compute; reflexivity|].
  intros [_ H]. destruct (H Hk) as [Hb _].
  vm_compute in Hb. discriminate Hb.
Qed.

(** ** C3, amended

    [refresh] shows [label_remove] together with the stored
    [GithubUsername], as [QString::fromStdString] decodes it, exactly when
    the stored [GithubSshKeys] decodes to a non-empty string, that is when it
    is neither empty nor a lone byte order mark; otherwise the username
    label is cleared and the button reads [label_add]; the control is
    enabled either way, and the store is only read. *)
Theorem refresh_shows_decoded_link_state (w : World) :
  let w' := exec refresh w in
  (button_text w' = label_remove ∧ username_label w' = decoded "GithubUsername" w
     ↔ decoded "GithubSshKeys" w ≠ "") ∧
  (button_text w' = label_add ∧ username_label w' = ""
     ↔ decoded "GithubSshKeys" w = "") ∧
  (decoded "GithubSshKeys" w = ""
     ↔ stored "GithubSshKeys" w = "" ∨ stored "GithubSshKeys" w = utf8_bom) ∧
  enabled w' = true ∧
  params w' = params w.
Proof.
  cbv zeta. rewrite refresh_unfold. cbv zeta.
  cbn [button_text username_label enabled params].
  split; [|split; [|split; [apply fromStdString_empty | split; reflexivity]]].
  - destruct (decoded "GithubSshKeys" w) as [|c s]; cbn [String.length Nat.eqb negb].
    + split; [intros [H _]; discriminate H | congruence].
    + split; [discriminate | intros _; split; reflexivity].
  - destruct (decoded "GithubSshKeys" w) as [|c s]; cbn [String.length Nat.eqb negb].
    + split; [reflexivity | intros _; split; reflexivity].
    + split; [intros [H _]; discriminate H | discriminate].
Qed.

(** ** C4

    [getUserKeys username] sends exactly one request, to
    [https://github.com/<username>.keys], and leaves the store alone; when
    that request completes successfully with a non-empty body, the closure
    stores [GithubUsername = username] and [GithubSshKeys = body]. *)
Theorem getUserKeys_sends_and_stores (username : string) (w : World) :
  let url := "https://github.com/" +:+ username +:+ ".keys" in
  let w1 := exec (getUserKeys username) w in
  trace w1 = trace w ++ [HttpRequest_sendRequest url] ∧
  requests w1 =
    requests w ++ [({| create_jwt := false; requestDone_slot := Some username |}, url)] ∧
  params w1 = params w ∧
  displayed w1 = displayed w ∧
  ∀ (timeout : bool) (resp : string), resp ≠ "" →
    let w2 := exec (deliver (length (requests w)) timeout resp true) w1 in
    params w2 = <["GithubSshKeys" := resp]> (<["GithubUsername" := username]> (params w)) ∧
    params w2 !! "GithubUsername" = Some username ∧
    params w2 !! "GithubSshKeys" = Some resp ∧
    trace w2 = trace w1 ∧
    requests w2 = requests w.
Proof.
  cbv zeta. rewrite getUserKeys_unfold. cbv zeta.
  repeat (split; [reflexivity|]).
  intros timeout resp Hr.
  unfold exec at 1 2 3 4 5. unfold deliver.
  cbn [requests log with_requests].
  rewrite lookup_app_r by reflexivity. rewrite Nat.sub_diag.
  cbn [lookup list_lookup requestDone_slot].
  fold (exec (requestDone (length (requests w)) timeout username resp true)
          (log (HttpRequest_sendRequest ("https://github.com/" +:+ username +:+ ".keys"))
             (with_requests
                (λ l, l ++ [({| create_jwt := false; requestDone_slot := Some username |},
                             "https://github.com/" +:+ username +:+ ".keys")]) w))).
  rewrite requestDone_stored by exact Hr.
  cbn [params trace requests with_requests]. rewrite refresh_params, refresh_trace, refresh_requests.
  cbn [params trace requests with_params log with_requests].
  split; [reflexivity|].
  split; [rewrite lookup_insert_ne by discriminate; apply lookup_insert_eq|].
  split; [apply lookup_insert_eq|].
  split; [reflexivity|].
  rewrite delete_middle. apply app_nil_r.
Qed.

Lemma getUserKeys_sends_and_stores_witness :
  let username := "octocat" in
  let w := SshControl ∅ [] in
  let w1 := exec (getUserKeys username) w in
  trace w1 = [HttpRequest_sendRequest "https://github.com/octocat.keys"] ∧
  "ssh-rsa AAA" ≠ "" ∧
  let w2 := exec (deliver 0 false "ssh-rsa AAA" true) w1 in
  params w2 !! "GithubUsername" = Some "octocat" ∧
  params w2 !! "GithubSshKeys" = Some "ssh-rsa AAA".
Proof.
  intros username w w1.
  destruct (getUserKeys_sends_and_stores username w) as (Ht & _ & _ & _ & Hdone).
  split; [exact Ht|].
  assert ("ssh-rsa AAA" ≠ "") as Hr by discriminate.
  split; [exact Hr|].
  destruct (Hdone false "ssh-rsa AAA" Hr) as (_ & Hu & Hk & _).
  split; [exact Hu | exact Hk].
Defined.

(** ** C5

    A completion that is not a success with a non-empty body leaves the
    store unchanged and shows exactly one alert: "Username '<username>' has
    no keys on GitHub" for a success with an empty body, "Request timed out"
    for a failure with the timeout flag set, and "Username '<username>'
    doesn't exist on GitHub" for any other failure. *)
Theorem requestDone_failure_alerts (i : nat) (timeout : bool) (username resp : string)
    (success : bool) (w : World) :
  ¬ (success = true ∧ resp ≠ "") →
  let w' := exec (requestDone i timeout username resp success) w in
  params w' = params w ∧
  (success = true →
     trace w' = trace w ++
       [ConfirmationDialog_alert ("Username '" +:+ username +:+ "' has no keys on GitHub")]) ∧
  (success = false → timeout = true →
     trace w' = trace w ++ [ConfirmationDialog_alert "Request timed out"]) ∧
  (success = false → timeout = false →
     trace w' = trace w ++
       [ConfirmationDialog_alert ("Username '" +:+ username +:+ "' doesn't exist on GitHub")]).
Proof.
  intros Hn. cbv zeta. rewrite requestDone_alerted by exact Hn.
  cbn [params trace with_requests]. rewrite refresh_params, refresh_trace.
  cbn [params trace log].
  split; [reflexivity|].
  repeat split; intros; subst; reflexivity.
Qed.

Lemma requestDone_failure_alerts_witness :
  let w := SshControl ∅ [] in
  let w' := exec (requestDone 0 true "octocat" "" false) w in
  ¬ (false = true ∧ "" ≠ "") ∧
  params w' = params w ∧
  trace w' = trace w ++ [ConfirmationDialog_alert "Request timed out"].
Proof.
  intros w w'.
  assert (¬ (false = true ∧ "" ≠ "")) as Hn by (intros [H _]; discriminate H).
  split; [exact Hn|].
  destruct (requestDone_failure_alerts 0 true "octocat" "" false w Hn) as (Hp & _ & Ht & _).
  split; [exact Hp | exact (Ht eq_refl eq_refl)].
Defined.

(** ** C6

    Whatever the outcome of the fetch, the closure ends with [refresh]: the
    world it leaves is a refreshed world with the finished request deleted,
    so the control is enabled and reads [label_add] or [label_remove], in
    agreement with the store. *)
Theorem requestDone_ends_refreshed (i : nat) (timeout : bool) (username resp : string)
    (success : bool) (w : World) :
  let w' := exec (requestDone i timeout username resp success) w in
  (∃ w1, w' = exec (Http.deleteLater i) (exec refresh w1)) ∧
  enabled w' = true ∧
  (button_text w' = label_add ∨ button_text w' = label_remove) ∧
  displayed (exec refresh w') = displayed w' ∧
  requests w' = delete i (requests w).
Proof.
  cbv zeta.
  assert (∃ w1, requests w1 = requests w ∧
                exec (requestDone i timeout username resp success) w
                = with_requests (delete i) (exec refresh w1)) as (w1 & Hreq & ->).
  { destruct success.
    - destruct resp as [|c resp].
      + eexists. split; [|apply requestDone_alerted; intros [_ H]; congruence]. reflexivity.
      + eexists. split; [|apply requestDone_stored; discriminate]. reflexivity.
    - eexists. split; [|apply requestDone_alerted; intros [H _]; discriminate]. reflexivity. }
  split; [exists w1; reflexivity|].
  rewrite (refresh_unfold (with_requests _ _)). unfold decoded, stored, displayed.
  cbn [params enabled button_text username_label requests with_requests].
  rewrite refresh_params, refresh_enabled, refresh_requests, Hreq.
  split; [reflexivity|]. split; [apply refresh_button_text|].
  split; [|reflexivity].
  rewrite (refresh_unfold w1). reflexivity.
Qed.

(** ** C7

    From a store in which [GithubUsername] and [GithubSshKeys] are both
    present or both absent, every operation of the control ([refresh], the
    click handler, [getUserKeys], the completion closure) and every sequence
    of clicks and completions leads to a store with the same property. *)
Theorem operations_keep_fields_paired (w : World) :
  paired (params w) →
  paired (params (exec refresh w)) ∧
  paired (params (exec clicked w)) ∧
  (∀ username, paired (params (exec (getUserKeys username) w))) ∧
  (∀ i timeout username resp success,
     paired (params (exec (requestDone i timeout username resp success) w))) ∧
  (∀ es, paired (params (run es w))).
Proof.
  intros H. split; [rewrite refresh_params; exact H|].
  split; [apply clicked_paired, H|].
  split; [intros username; exact H|].
  split; [intros; apply requestDone_paired, H|].
  intros es. apply run_paired, H.
Qed.

Lemma operations_keep_fields_paired_witness :
  let w := with_button_text "ADD"
             (SshControl (<["GithubUsername" := "octocat"]> {["GithubSshKeys" := "ssh-rsa AAA"]})
                         ["torvalds"]) in
  paired (params w) ∧
  paired (params (run [Click; Completion 0 false "ssh-ed25519 BBB" true; Click] w)).
Proof.
  intros w.
  assert (paired (params w)) as H.
  { unfold paired. vm_compute. split; intros _; eexists; reflexivity. }
  split; [exact H|].
  destruct (operations_keep_fields_paired w H) as (_ & _ & _ & _ & Hrun).
  apply Hrun.
Defined.

(** ** C8

    Calling [refresh] twice in a row displays exactly what calling it once
    displays: the same button text, the same username label and the same
    enabled flag. *)
Theorem refresh_idempotent (w : World) :
  displayed (exec refresh (exec refresh w)) = displayed (exec refresh w) ∧
  button_text (exec refresh (exec refresh w)) = button_text (exec refresh w) ∧
  username_label (exec refresh (exec refresh w)) = username_label (exec refresh w) ∧
  enabled (exec refresh (exec refresh w)) = enabled (exec refresh w).
Proof. rewrite refresh_idem. repeat split. Qed.

(** ** C9

    The click handler compares the button text with the literal [ADD], which
    [refresh] never sets.  Hence a click after any [refresh], linked or not,
    takes the removal branch: both fields are deleted and the control is
    refreshed, with no prompt and no request.  From the constructor on, no
    sequence of clicks and completions ever shows the prompt, the loading
    text or sends a request. *)
Theorem clicked_after_refresh_always_removes :
  (∀ w0 : World,
     let w := exec refresh w0 in
     let w' := exec clicked w in
     button_text w ≠ "ADD" ∧
     w' = exec refresh (with_params unlinked w) ∧
     params w' = delete "GithubSshKeys" (delete "GithubUsername" (params w)) ∧
     trace w' = trace w ∧
     requests w' = requests w ∧
     typed w' = typed w ∧
     displayed w' = (label_add, "", true)) ∧
  (∀ (store : gmap string string) (answers : list string) (es : list input),
     let w := run es (SshControl store answers) in
     trace w = [] ∧
     requests w = [] ∧
     typed w = answers ∧
     button_text w ≠ label_loading ∧
     button_text w ≠ "ADD").
Proof.
  split.
  - intros w0. cbv zeta.
    pose proof (refresh_not_ADD w0) as Hne.
    split; [exact Hne|].
    rewrite (clicked_else _ Hne). split; [reflexivity|].
    rewrite refresh_unlinked. repeat split.
  - intros store answers es. cbv zeta.
    destruct (run_quiet answers es _ (SshControl_quiet store answers)) as (Ht & Hr & Ha & Hb).
    repeat split; try assumption.
    + destruct Hb as [-> | ->]; discriminate.
    + destruct Hb as [-> | ->]; discriminate.
Qed.

(** ** C10

    What [refresh] decides depends on [GithubSshKeys] alone: two worlds whose
    stores answer the same for [GithubSshKeys] get the same button text and
    the same enabled flag, whatever [GithubUsername] holds; and a store with
    a [GithubUsername] but no keys is displayed as unlinked. *)
Theorem refresh_depends_on_keys_only (w1 w2 : World) :
  stored "GithubSshKeys" w1 = stored "GithubSshKeys" w2 →
  button_text (exec refresh w1) = button_text (exec refresh w2) ∧
  enabled (exec refresh w1) = enabled (exec refresh w2) ∧
  (stored "GithubSshKeys" w1 = "" →
     displayed (exec refresh w1) = (label_add, "", true) ∧
     displayed (exec refresh w2) = (label_add, "", true)).
Proof.
  intros H. rewrite (refresh_unfold w1), (refresh_unfold w2). cbv zeta.
  unfold displayed, decoded. cbn [button_text enabled username_label].
  rewrite <- H. repeat split.
  all: match goal with E : _ = "" |- _ => rewrite E end; reflexivity.
Qed.

Lemma refresh_depends_on_keys_only_witness :
  let w1 := SshControl {["GithubUsername" := "octocat"]} [] in
  let w2 := SshControl ∅ [] in
  stored "GithubSshKeys" w1 = stored "GithubSshKeys" w2 ∧
  stored "GithubSshKeys" w1 = "" ∧
  button_text (exec refresh w1) = button_text (exec refresh w2) ∧
  enabled (exec refresh w1) = enabled (exec refresh w2) ∧
  displayed (exec refresh w1) = (label_add, "", true) ∧
  displayed (exec refresh w2) = (label_add, "", true).
Proof.
  intros w1 w2.
  assert (stored "GithubSshKeys" w1 = stored "GithubSshKeys" w2) as H
    by (vm_compute; reflexivity).
  assert (stored "GithubSshKeys" w1 = "") as H0 by (vm_compute; reflexivity).
  destruct (refresh_depends_on_keys_only w1 w2 H) as (Hb & He & Hd).
  destruct (Hd H0) as (Hd1 & Hd2).
  repeat (split; [assumption|]). assumption.
Defined.

(** * Further properties of the widget *)

Lemma deliver_connected (i : nat) (timeout : bool) (resp : string) (success : bool)
    (w : World) (request : HttpRequest) (url username : string) :
  requests w !! i = Some (request, url) →
  requestDone_slot request = Some username →
  exec (deliver i timeout resp success) w
  = exec (requestDone i timeout username resp success) w.
Proof. intros Hi Hs. unfold exec at 1. unfold deliver. rewrite Hi, Hs. reflexivity. Qed.

Lemma unlinked_linked (m : gmap string string) (username resp : string) :
  unlinked (<["GithubSshKeys" := resp]> (<["GithubUsername" := username]> m)) = unlinked m.
Proof.
  unfold unlinked.
  rewrite (delete_insert_ne _ "GithubUsername" "GithubSshKeys") by discriminate.
  rewrite delete_insert_eq, delete_insert_eq. reflexivity.
Qed.

Lemma unlinked_idem (m : gmap string string) : unlinked (unlinked m) = unlinked m.
Proof.
  unfold unlinked at 1. rewrite (delete_id _ "GithubUsername") by apply unlinked_username.
  apply delete_id, unlinked_keys.
Qed.

Lemma unlinked_other (m : gmap string string) (key : string) :
  key ≠ "GithubUsername" → key ≠ "GithubSshKeys" → unlinked m !! key = m !! key.
Proof.
  intros Hu Hk. unfold unlinked. rewrite !lookup_delete_ne by congruence. reflexivity.
Qed.

(** ** X1

    The constructor leaves the store as it found it, shows no dialog and
    sends no request; the new control is enabled and displays the Remove
    label with the decoded stored username when the stored [GithubSshKeys]
    decodes to a non-empty string, the Add label with an empty username
    otherwise. *)
Theorem SshControl_initial (store : gmap string string) (answers : list string) :
  let w := SshControl store answers in
  params w = store ∧
  trace w = [] ∧
  requests w = [] ∧
  typed w = answers ∧
  displayed w =
    if negb (String.length
               (QString_fromStdString (default "" (store !! "GithubSshKeys"))) =? 0)%nat
    then (label_remove, QString_fromStdString (default "" (store !! "GithubUsername")), true)
    else (label_add, "", true).
Proof.
  cbv zeta. unfold SshControl. rewrite refresh_unfold. cbv zeta.
  unfold decoded, stored, displayed.
  cbn [params trace requests typed button_text username_label enabled].
  repeat (split; [reflexivity|]).
  destruct (negb _); reflexivity.
Qed.

(** ** X2

    When the button reads the literal [ADD] and the user answers the prompt
    with a non-empty name, the click handler shows exactly one prompt, then
    sends exactly one request to [https://github.com/<name>.keys] whose
    closure captured that name; the button shows the loading text, the
    control is disabled, and neither the store nor the username label is
    touched. *)
Theorem clicked_ADD_fetches (w : World) :
  button_text w = "ADD" →
  hd "" (typed w) ≠ "" →
  let username := hd "" (typed w) in
  let url := "https://github.com/" +:+ username +:+ ".keys" in
  let w' := exec clicked w in
  trace w' = trace w ++ [InputDialog_getText prompt_username username;
                         HttpRequest_sendRequest url] ∧
  requests w' =
    requests w ++ [({| create_jwt := false; requestDone_slot := Some username |}, url)] ∧
  displayed w' = (label_loading, username_label w, false) ∧
  params w' = params w ∧
  typed w' = tl (typed w).
Proof.
  intros Ht Hu. cbv zeta. rewrite (clicked_ADD w Ht). cbv zeta.
  destruct (hd "" (typed w)) as [|c u] eqn:E; [contradiction|].
  cbn [String.length Nat.ltb Nat.leb]. rewrite getUserKeys_unfold. cbv zeta.
  unfold displayed.
  cbn [trace requests params typed button_text username_label enabled
       log with_requests with_enabled with_button_text with_typed].
  rewrite <- app_assoc. repeat split.
Qed.

Lemma clicked_ADD_fetches_witness :
  let w := with_button_text "ADD" (SshControl ∅ ["octocat"; "torvalds"]) in
  button_text w = "ADD" ∧
  hd "" (typed w) ≠ "" ∧
  trace (exec clicked w) =
    [InputDialog_getText prompt_username "octocat";
     HttpRequest_sendRequest "https://github.com/octocat.keys"] ∧
  displayed (exec clicked w) = (label_loading, "", false) ∧
  typed (exec clicked w) = ["torvalds"].
Proof.
  intros w.
  assert (button_text w = "ADD") as Ht by reflexivity.
  assert (hd "" (typed w) ≠ "") as Hu by discriminate.
  destruct (clicked_ADD_fetches w Ht Hu) as (H1 & _ & H3 & _ & H5).
  repeat (split; [assumption|]). assumption.
Defined.

(** ** X3

    When the button reads [ADD] and the prompt is cancelled or answered with
    the empty string, the click does nothing but show the prompt: store,
    display (the enabled flag included) and requests are as before. *)
Theorem clicked_ADD_cancelled (w : World) :
  button_text w = "ADD" →
  hd "" (typed w) = "" →
  let w' := exec clicked w in
  trace w' = trace w ++ [InputDialog_getText prompt_username ""] ∧
  requests w' = requests w ∧
  displayed w' = displayed w ∧
  params w' = params w.
Proof.
  intros Ht Hu. cbv zeta. rewrite (clicked_ADD w Ht). cbv zeta.
  rewrite Hu. cbn [String.length Nat.ltb Nat.leb]. repeat split.
Qed.

Lemma clicked_ADD_cancelled_witness :
  let w := with_button_text "ADD" (SshControl ∅ []) in
  button_text w = "ADD" ∧
  hd "" (typed w) = "" ∧
  let w' := exec clicked w in
  trace w' = trace w ++ [InputDialog_getText prompt_username ""] ∧
  requests w' = requests w ∧
  displayed w' = displayed w ∧
  params w' = params w.
Proof.
  intros w.
  assert (button_text w = "ADD") as Ht by reflexivity.
  assert (hd "" (typed w) = "") as Hu by reflexivity.
  split; [exact Ht|]. split; [exact Hu|].
  exact (clicked_ADD_cancelled w Ht Hu).
Defined.

(** ** X4

    A successful completion whose body is neither empty nor a lone byte
    order mark shows no alert and leaves the control enabled, reading the
    Remove label, with the captured username (read back from the store) in
    the username label, whatever was stored or displayed before. *)
Theorem requestDone_success_shows_linked (i : nat) (timeout : bool)
    (username resp : string) (w : World) :
  resp ≠ "" →
  resp ≠ utf8_bom →
  let w' := exec (requestDone i timeout username resp true) w in
  displayed w' = (label_remove, QString_fromStdString username, true) ∧
  trace w' = trace w ∧
  typed w' = typed w.
Proof.
  intros Hr Hb. cbv zeta. rewrite requestDone_stored by exact Hr.
  rewrite refresh_unfold. cbv zeta. unfold decoded, stored, displayed.
  cbn [params with_params with_requests button_text username_label enabled trace typed].
  rewrite lookup_insert_eq. cbn [default from_option id].
  rewrite (proj2 (fromStdString_length resp) (conj Hr Hb)).
  rewrite lookup_insert_ne by discriminate. rewrite lookup_insert_eq.
  repeat split.
Qed.

Lemma requestDone_success_shows_linked_witness :
  let w := SshControl ∅ [] in
  "ssh-rsa AAA" ≠ "" ∧
  "ssh-rsa AAA" ≠ utf8_bom ∧
  let w' := exec (requestDone 0 false "octocat" "ssh-rsa AAA" true) w in
  displayed w' = (label_remove, "octocat", true) ∧
  trace w' = trace w ∧
  typed w' = typed w.
Proof.
  intros w.
  assert ("ssh-rsa AAA" ≠ "") as Hr by discriminate.
  assert ("ssh-rsa AAA" ≠ utf8_bom) as Hb by discriminate.
  split; [exact Hr|]. split; [exact Hb|].
  exact (requestDone_success_shows_linked 0 false "octocat" "ssh-rsa AAA" w Hr Hb).
Defined.

(** ** X5

    A completion that stores nothing displays what the store held before
    the fetch: the control shows what [refresh] shows on the old world, so
    a failed fetch on a control whose stored keys decode to a non-empty
    string returns to the Remove label with the old username, not to the
    Add label. *)
Theorem requestDone_failure_shows_old_link (i : nat) (timeout : bool)
    (username resp : string) (success : bool) (w : World) :
  ¬ (success = true ∧ resp ≠ "") →
  let w' := exec (requestDone i timeout username resp success) w in
  displayed w' = displayed (exec refresh w) ∧
  (decoded "GithubSshKeys" w ≠ "" →
     displayed w' = (label_remove, decoded "GithubUsername" w, true)).
Proof.
  intros Hn. cbv zeta. rewrite requestDone_alerted by exact Hn.
  rewrite (refresh_unfold (log _ w)), (refresh_unfold w). cbv zeta.
  unfold decoded, stored, displayed.
  cbn [params log with_requests button_text username_label enabled].
  split; [reflexivity|].
  intros Hk. rewrite (nonempty_length _ Hk). reflexivity.
Qed.

Lemma requestDone_failure_shows_old_link_witness :
  let w := SshControl (<["GithubUsername" := "octocat"]> {["GithubSshKeys" := "ssh-rsa AAA"]}) [] in
  let w' := exec (requestDone 0 false "torvalds" "" false) w in
  ¬ (false = true ∧ "" ≠ "") ∧
  decoded "GithubSshKeys" w ≠ "" ∧
  displayed w' = displayed (exec refresh w) ∧
  displayed w' = (label_remove, "octocat", true).
Proof.
  intros w w'.
  assert (¬ (false = true ∧ "" ≠ "")) as Hn by (intros [H _]; discriminate H).
  assert (decoded "GithubSshKeys" w ≠ "") as Hk by (vm_compute; discriminate).
  destruct (requestDone_failure_shows_old_link 0 false "torvalds" "" false w Hn) as (H1 & H2).
  split; [exact Hn|]. split; [exact Hk|]. split; [exact H1 | exact (H2 Hk)].
Defined.

Lemma clicked_ADD_nonempty (w : World) :
  button_text w = "ADD" →
  hd "" (typed w) ≠ "" →
  exec clicked w =
  let username := hd "" (typed w) in
  let url := "https://github.com/" +:+ username +:+ ".keys" in
  mkWorld (params w) label_loading (username_label w) false
          (requests w ++ [({| create_jwt := false; requestDone_slot := Some username |}, url)])
          (tl (typed w))
          (trace w ++ [InputDialog_getText prompt_username username;
                       HttpRequest_sendRequest url]).
Proof.
  intros Ht Hu. rewrite (clicked_ADD w Ht). cbv zeta.
  destruct (hd "" (typed w)) as [|c u] eqn:E; [contradiction|].
  cbn [String.length Nat.ltb Nat.leb]. rewrite getUserKeys_unfold. cbv zeta.
  unfold log, with_requests, with_enabled, with_button_text, with_typed.
  cbn [trace requests params typed button_text username_label enabled].
  rewrite <- app_assoc. reflexivity.
Qed.

Lemma requestDone_shape (i : nat) (timeout : bool) (username resp : string)
    (success : bool) (w : World) :
  ∃ w1, requests w1 = requests w ∧
        exec (requestDone i timeout username resp success) w
        = with_requests (delete i) (exec refresh w1).
Proof.
  destruct success.
  - destruct resp as [|c resp].
    + eexists. split; [|apply requestDone_alerted; intros [_ H]; congruence]. reflexivity.
    + eexists. split; [|apply requestDone_stored; discriminate]. reflexivity.
  - eexists. split; [|apply requestDone_alerted; intros [H _]; discriminate]. reflexivity.
Qed.

Lemma requestDone_requests (i : nat) (timeout : bool) (username resp : string)
    (success : bool) (w : World) :
  requests (exec (requestDone i timeout username resp success) w) = delete i (requests w).
Proof.
  destruct (requestDone_shape i timeout username resp success w) as (w1 & Hr & ->).
  cbn [requests with_requests]. rewrite refresh_requests, Hr. reflexivity.
Qed.

Lemma requestDone_enabled (i : nat) (timeout : bool) (username resp : string)
    (success : bool) (w : World) :
  enabled (exec (requestDone i timeout username resp success) w) = true.
Proof.
  destruct (requestDone_shape i timeout username resp success w) as (w1 & Hr & ->).
  cbn [enabled with_requests]. apply refresh_enabled.
Qed.

Lemma requestDone_not_ADD (i : nat) (timeout : bool) (username resp : string)
    (success : bool) (w : World) :
  button_text (exec (requestDone i timeout username resp success) w) ≠ "ADD".
Proof.
  destruct (requestDone_shape i timeout username resp success w) as (w1 & Hr & ->).
  cbn [button_text with_requests]. apply refresh_not_ADD.
Qed.

Lemma length_append (a b : string) :
  String.length (a +:+ b) = String.length a + String.length b.
Proof. induction a as [|c a IH]; simpl; [reflexivity | f_equal; exact IH]. Qed.

Lemma append_cancel_r (s u1 u2 : string) : u1 +:+ s = u2 +:+ s → u1 = u2.
Proof.
  revert u2. induction u1 as [|c u1 IH]; intros [|c2 u2] H.
  - reflexivity.
  - apply (f_equal String.length) in H.
    rewrite !length_append in H. simpl in H. lia.
  - apply (f_equal String.length) in H.
    rewrite !length_append in H. simpl in H. lia.
  - simpl in H. injection H as -> H. f_equal. apply IH, H.
Qed.

(** ** X6

    The whole link flow from a button reading [ADD]: a click answered with a
    non-empty name followed by the successful completion of the request just
    sent, with a body that is neither empty nor a lone byte order mark,
    stores that name and the body, shows the Remove label with the name as
    read back from the store, re-enables the control, deletes the request,
    and has shown one prompt, sent one request and shown no alert. *)
Theorem link_flow (timeout : bool) (resp : string) (w : World) :
  button_text w = "ADD" →
  hd "" (typed w) ≠ "" →
  resp ≠ "" →
  resp ≠ utf8_bom →
  let username := hd "" (typed w) in
  let w' := run [Click; Completion (length (requests w)) timeout resp true] w in
  params w' = <["GithubSshKeys" := resp]> (<["GithubUsername" := username]> (params w)) ∧
  displayed w' = (label_remove, QString_fromStdString username, true) ∧
  requests w' = requests w ∧
  trace w' = trace w ++ [InputDialog_getText prompt_username username;
                         HttpRequest_sendRequest ("https://github.com/" +:+ username +:+ ".keys")].
Proof.
  intros Ht Hu Hr Hb. cbv zeta. unfold run. cbn [foldl handle].
  rewrite (clicked_ADD_nonempty w Ht Hu). cbv zeta.
  erewrite deliver_connected;
    [|cbn [requests]; apply list_lookup_middle; reflexivity|reflexivity].
  rewrite requestDone_stored by exact Hr.
  rewrite refresh_unfold. cbv zeta. unfold decoded, stored, displayed.
  cbn [params trace requests typed button_text username_label enabled
       with_params with_requests].
  rewrite lookup_insert_eq. cbn [default from_option id].
  rewrite (proj2 (fromStdString_length resp) (conj Hr Hb)).
  rewrite lookup_insert_ne by discriminate. rewrite lookup_insert_eq.
  cbn [default from_option id].
  rewrite delete_middle, app_nil_r. repeat split.
Qed.

Lemma link_flow_witness :
  let w := with_button_text "ADD" (SshControl ∅ ["octocat"]) in
  let w' := run [Click; Completion 0 false "ssh-rsa AAA" true] w in
  button_text w = "ADD" ∧
  hd "" (typed w) ≠ "" ∧
  "ssh-rsa AAA" ≠ "" ∧
  "ssh-rsa AAA" ≠ utf8_bom ∧
  params w' !! "GithubUsername" = Some "octocat" ∧
  params w' !! "GithubSshKeys" = Some "ssh-rsa AAA" ∧
  displayed w' = (label_remove, "octocat", true) ∧
  requests w' = [].
Proof.
  intros w w'.
  assert (button_text w = "ADD") as Ht by reflexivity.
  assert (hd "" (typed w) ≠ "") as Hu by discriminate.
  assert ("ssh-rsa AAA" ≠ "") as Hr by discriminate.
  assert ("ssh-rsa AAA" ≠ utf8_bom) as Hb by discriminate.
  destruct (link_flow false "ssh-rsa AAA" w Ht Hu Hr Hb) as (Hp & Hd & Hq & _).
  repeat (split; [assumption|]).
  split; [unfold w'; change (length (requests w)) with 0 in Hp; rewrite Hp;
          rewrite lookup_insert_ne by discriminate; apply lookup_insert_eq|].
  split; [unfold w'; change (length (requests w)) with 0 in Hp; rewrite Hp;
          apply lookup_insert_eq|].
  split; [exact Hd | exact Hq].
Defined.

(** ** X7

    Linking and then clicking undoes the link: after a successful, non-empty
    completion the next click removes both fields, so the store is the old
    store without [GithubUsername] and [GithubSshKeys], and the control
    shows the Add label with an empty username. *)
Theorem link_then_click_unlinks (i : nat) (timeout : bool) (username resp : string)
    (w : World) :
  resp ≠ "" →
  let w' := exec clicked (exec (requestDone i timeout username resp true) w) in
  params w' = delete "GithubSshKeys" (delete "GithubUsername" (params w)) ∧
  displayed w' = (label_add, "", true) ∧
  trace w' = trace w.
Proof.
  intros Hr. cbv zeta.
  rewrite clicked_else by apply requestDone_not_ADD.
  rewrite refresh_unlinked. unfold displayed.
  cbn [params trace button_text username_label enabled].
  rewrite requestDone_stored by exact Hr.
  cbn [params trace with_requests]. rewrite refresh_params, refresh_trace.
  cbn [params trace with_params]. rewrite unlinked_linked. repeat split.
Qed.

Lemma link_then_click_unlinks_witness :
  let w := SshControl {["theme" := "dark"]} [] in
  let w' := exec clicked (exec (requestDone 0 false "octocat" "ssh-rsa AAA" true) w) in
  "ssh-rsa AAA" ≠ "" ∧
  params w' = delete "GithubSshKeys" (delete "GithubUsername" (params w)) ∧
  displayed w' = (label_add, "", true) ∧
  trace w' = trace w.
Proof.
  intros w w'.
  assert ("ssh-rsa AAA" ≠ "") as Hr by discriminate.
  split; [exact Hr|].
  exact (link_then_click_unlinks 0 false "octocat" "ssh-rsa AAA" w Hr).
Defined.

Lemma handle_other_key (key : string) (e : input) (w : World) :
  key ≠ "GithubUsername" → key ≠ "GithubSshKeys" →
  params (exec (handle e) w) !! key = params w !! key.
Proof.
  intros Hu Hk. destruct e as [|i timeout resp success]; cbn [handle].
  - destruct (clicked_params w) as [-> | ->]; [reflexivity | apply unlinked_other; assumption].
  - unfold exec, deliver.
    destruct (requests w !! i) as [[request url]|]; [|reflexivity].
    destruct (requestDone_slot request) as [username|]; [|reflexivity].
    fold (exec (requestDone i timeout username resp success) w).
    rewrite requestDone_params. destruct (success && _); [|reflexivity].
    rewrite !lookup_insert_ne by congruence. reflexivity.
Qed.

Lemma handle_well_sent (e : input) (w : World) :
  well_sent w → well_sent (exec (handle e) w).
Proof.
  unfold well_sent. intros H. destruct e as [|i timeout resp success]; cbn [handle].
  - destruct (String.eqb_spec (button_text w) "ADD") as [E|N].
    + destruct (decide (hd "" (typed w) = "")) as [Hu|Hu].
      * rewrite (clicked_ADD w E). cbv zeta. rewrite Hu. exact H.
      * rewrite (clicked_ADD_nonempty w E Hu). cbv zeta. cbn [requests].
        apply Forall_app. split; [exact H|].
        apply Forall_singleton. exists (hd "" (typed w)). split; [exact Hu | reflexivity].
    + rewrite (clicked_else w N), refresh_unlinked. exact H.
  - unfold exec, deliver.
    destruct (requests w !! i) as [[request url]|]; [|exact H].
    destruct (requestDone_slot request) as [username|]; [|exact H].
    fold (exec (requestDone i timeout username resp success) w).
    rewrite requestDone_requests. apply Forall_delete, H.
Qed.

Lemma handle_nonempty_link (e : input) (w : World) :
  well_sent w → nonempty_link (params w) → nonempty_link (params (exec (handle e) w)).
Proof.
  intros Hs H. destruct e as [|i timeout resp success]; cbn [handle].
  - destruct (clicked_params w) as [-> | ->]; [exact H|].
    intros keys Hk. rewrite unlinked_keys in Hk. discriminate Hk.
  - unfold exec, deliver.
    destruct (requests w !! i) as [[request url]|] eqn:Hi; [|exact H].
    destruct (requestDone_slot request) as [username|] eqn:Hslot; [|exact H].
    fold (exec (requestDone i timeout username resp success) w).
    rewrite requestDone_params.
    destruct success; cbn [andb]; [|exact H].
    destruct resp as [|c resp]; cbn [String.length Nat.eqb negb]; [exact H|].
    unfold well_sent in Hs. rewrite Forall_lookup in Hs.
    destruct (Hs _ _ Hi) as (u & Hu & Heq).
    injection Heq as -> _. cbn in Hslot. injection Hslot as <-.
    intros keys Hk. rewrite lookup_insert_eq in Hk. injection Hk as <-.
    split; [discriminate|]. exists u.
    rewrite lookup_insert_ne by discriminate. rewrite lookup_insert_eq. auto.
Qed.

Lemma handle_responsive (e : input) (w : World) :
  responsive w → responsive (exec (handle e) w).
Proof.
  unfold responsive. intros H. destruct e as [|i timeout resp success]; cbn [handle].
  - destruct (String.eqb_spec (button_text w) "ADD") as [E|N].
    + destruct (decide (hd "" (typed w) = "")) as [Hu|Hu].
      * rewrite (clicked_ADD w E). cbv zeta. rewrite Hu. exact H.
      * right. rewrite (clicked_ADD_nonempty w E Hu). cbv zeta. cbn [requests].
        intros Hnil. apply app_eq_nil in Hnil as [_ Hnil]. discriminate Hnil.
    + left. rewrite (clicked_else w N), refresh_unlinked. reflexivity.
  - unfold exec, deliver.
    destruct (requests w !! i) as [[request url]|]; [|exact H].
    destruct (requestDone_slot request) as [username|]; [|exact H].
    left. apply requestDone_enabled.
Qed.

(** ** X8

    The control only ever writes [GithubUsername] and [GithubSshKeys]: every
    other key of the store reads the same after any sequence of clicks and
    completions, and after any direct run of the completion closure. *)
Theorem other_keys_untouched (key : string) (w : World) :
  key ≠ "GithubUsername" →
  key ≠ "GithubSshKeys" →
  (∀ es, params (run es w) !! key = params w !! key) ∧
  (∀ i timeout username resp success,
     params (exec (requestDone i timeout username resp success) w) !! key = params w !! key).
Proof.
  intros Hu Hk. split.
  - intros es. revert w. induction es as [|e es IH]; intros w; [reflexivity|].
    cbn [run foldl]. etransitivity; [apply IH|]. apply handle_other_key; assumption.
  - intros. rewrite requestDone_params. destruct (success && _); [|reflexivity].
    rewrite !lookup_insert_ne by congruence. reflexivity.
Qed.

Lemma other_keys_untouched_witness :
  let w := with_button_text "ADD" (SshControl {["theme" := "dark"]} ["octocat"]) in
  "theme" ≠ "GithubUsername" ∧
  "theme" ≠ "GithubSshKeys" ∧
  params (run [Click; Completion 0 false "ssh-rsa AAA" true; Click] w) !! "theme"
  = params w !! "theme".
Proof.
  intros w.
  assert ("theme" ≠ "GithubUsername") as Hu by discriminate.
  assert ("theme" ≠ "GithubSshKeys") as Hk by discriminate.
  destruct (other_keys_untouched "theme" w Hu Hk) as (Hrun & _).
  split; [exact Hu|]. split; [exact Hk|]. apply Hrun.
Defined.

(** ** X9

    On the removal branch a second click changes nothing: once the button
    reads anything but [ADD], clicking twice leaves the same world as
    clicking once. *)
Theorem clicked_twice (w : World) :
  button_text w ≠ "ADD" →
  exec clicked (exec clicked w) = exec clicked w.
Proof.
  intros N. rewrite (clicked_else w N), refresh_unlinked.
  rewrite clicked_else by apply label_add_not_ADD.
  rewrite refresh_unlinked. cbn [params requests typed trace].
  rewrite unlinked_idem. reflexivity.
Qed.

Lemma clicked_twice_witness :
  let w := SshControl (<["GithubUsername" := "octocat"]> {["GithubSshKeys" := "ssh-rsa AAA"]}) [] in
  button_text w ≠ "ADD" ∧
  exec clicked (exec clicked w) = exec clicked w.
Proof.
  intros w.
  assert (button_text w ≠ "ADD") as N by (vm_compute; discriminate).
  split; [exact N | exact (clicked_twice w N)].
Defined.

(** ** X10

    The control never stores an empty link.  If every request in flight was
    sent by the click handler (non-empty username, closure connected) and
    the store holds keys only together with a non-empty username, then the
    same holds after any sequence of clicks and completions: the guard on
    the typed name and the guard on the response body keep empty values out
    of the store. *)
Theorem run_keeps_nonempty_link (es : list input) (w : World) :
  well_sent w →
  nonempty_link (params w) →
  well_sent (run es w) ∧ nonempty_link (params (run es w)).
Proof.
  revert w. induction es as [|e es IH]; intros w Hs Hl; [split; assumption|].
  cbn [run foldl]. apply IH.
  - apply handle_well_sent, Hs.
  - apply handle_nonempty_link; assumption.
Qed.

Lemma run_keeps_nonempty_link_witness :
  let w := exec clicked
             (with_button_text "ADD"
                (SshControl (<["GithubUsername" := "torvalds"]> {["GithubSshKeys" := "ssh-rsa AAA"]})
                            ["octocat"])) in
  let es := [Completion 0 false "ssh-ed25519 BBB" true] in
  requests w ≠ [] ∧
  params w !! "GithubSshKeys" = Some "ssh-rsa AAA" ∧
  well_sent w ∧
  nonempty_link (params w) ∧
  well_sent (run es w) ∧
  nonempty_link (params (run es w)) ∧
  params (run es w) !! "GithubUsername" = Some "octocat" ∧
  params (run es w) !! "GithubSshKeys" = Some "ssh-ed25519 BBB".
Proof.
  intros w es.
  assert (well_sent w) as Hs.
  { unfold well_sent.
    assert (requests w =
              [({| create_jwt := false; requestDone_slot := Some "octocat" |},
                "https://github.com/octocat.keys")]) as -> by (vm_compute; reflexivity).
    apply Forall_singleton. exists "octocat". split; [discriminate | reflexivity]. }
  assert (nonempty_link (params w)) as Hl.
  { intros keys Hk.
    assert (params w !! "GithubSshKeys" = Some "ssh-rsa AAA") as E by (vm_compute; reflexivity).
    rewrite E in Hk. injection Hk as <-.
    split; [discriminate|]. exists "torvalds".
    split; [vm_compute; reflexivity | discriminate]. }
  split; [vm_compute; discriminate|].
  split; [vm_compute; reflexivity|].
  split; [exact Hs|]. split; [exact Hl|].
  destruct (run_keeps_nonempty_link es w Hs Hl) as (Hs' & Hl').
  split; [exact Hs'|]. split; [exact Hl'|].
  split; vm_compute; reflexivity.
Defined.

(** ** X11

    The request URL carries the username verbatim: two calls of
    [getUserKeys] that send the same URL were given the same username. *)
Theorem getUserKeys_url_injective (u1 u2 : string) (w : World) :
  trace (exec (getUserKeys u1) w) = trace (exec (getUserKeys u2) w) →
  u1 = u2.
Proof.
  rewrite !getUserKeys_unfold. cbv zeta. cbn [trace log].
  intros H. apply app_inv_head in H. injection H as H.
  change ("" +:+ u1 +:+ ".keys" = "" +:+ u2 +:+ ".keys")
    with (u1 +:+ ".keys" = u2 +:+ ".keys") in H.
  apply append_cancel_r in H. exact H.
Qed.

Lemma getUserKeys_url_injective_witness :
  let w := SshControl ∅ [] in
  trace (exec (getUserKeys "octocat") w) = trace (exec (getUserKeys "octocat") w) ∧
  "octocat" = "octocat".
Proof.
  intros w.
  assert (trace (exec (getUserKeys "octocat") w) = trace (exec (getUserKeys "octocat") w))
    as H by reflexivity.
  split; [exact H | exact (getUserKeys_url_injective "octocat" "octocat" w H)].
Defined.

(** ** X12

    The control is never stuck disabled.  Starting from a world that is
    enabled or has a request in flight, with every request sent by the click
    handler, every sequence of clicks and completions ends in a world that
    is enabled or has a request in flight, and the completion of any request
    in flight, whatever its outcome, enables the control. *)
Theorem run_never_stuck (es : list input) (w : World) :
  well_sent w →
  responsive w →
  let w' := run es w in
  responsive w' ∧
  ∀ i timeout resp success,
    i < length (requests w') →
    enabled (exec (deliver i timeout resp success) w') = true.
Proof.
  intros Hs Hr. cbv zeta.
  assert (well_sent (run es w) ∧ responsive (run es w)) as [Hs' Hr'].
  { revert w Hs Hr. induction es as [|e es IH]; intros w Hs Hr; [split; assumption|].
    cbn [run foldl]. apply IH; [apply handle_well_sent, Hs | apply handle_responsive, Hr]. }
  split; [exact Hr'|].
  intros i timeout resp success Hi.
  destruct (lookup_lt_is_Some_2 _ _ Hi) as [[request url] Hlook].
  unfold well_sent in Hs'. rewrite Forall_lookup in Hs'.
  destruct (Hs' _ _ Hlook) as (u & _ & Heq). injection Heq as -> _.
  erewrite deliver_connected; [|exact Hlook|reflexivity].
  apply requestDone_enabled.
Qed.

Lemma run_never_stuck_witness :
  let w := with_button_text "ADD" (SshControl ∅ ["octocat"]) in
  let w' := run [Click] w in
  well_sent w ∧
  responsive w ∧
  enabled w' = false ∧
  responsive w' ∧
  0 < length (requests w') ∧
  enabled (exec (deliver 0 true "" false) w') = true.
Proof.
  intros w w'.
  assert (well_sent w) as Hs by constructor.
  assert (responsive w) as Hr by (left; reflexivity).
  destruct (run_never_stuck [Click] w Hs Hr) as (Hr' & Hdone).
  assert (0 < length (requests w')) as Hlen by (vm_compute; lia).
  split; [exact Hs|]. split; [exact Hr|]. split; [reflexivity|].
  split; [exact Hr'|]. split; [exact Hlen | exact (Hdone 0 true "" false Hlen)].
Defined.
